(** * json_dup_key_check: a shallow embedding of scripts/ci/json_dup_key_check.py

    The script reads one path from the command line, loads the file with
    [json.load] and an [object_pairs_hook] that returns each object's pair
    list unchanged, runs [check_duplicate_keys] on the loaded value, prints
    one line and exits.

    The embedding has four layers:
    - [Py]: the Python values [json.load] can hand to the script, the
      exceptions that occur, and the primitive operations the script uses on
      them (iteration, tuple unpacking, set membership);
    - [Json]: JSON documents as trees, and the value [json.load] builds from
      a document for a given [object_pairs_hook];
    - [Script]: [check_duplicate_keys] and [main], statement by statement;
    - [Statements]: the vocabulary of the properties proved below.

    The [json] module and the filesystem are outside the script.  They are
    represented by what they answer: a path either makes [open] raise or
    yields a file, and a file either makes [json.load] raise or holds a
    document. *)

From Stdlib Require Import List String Ascii ZArith Bool Lia Permutation.
From Stdlib Require Import Floats.SpecFloat.
Import ListNotations.
Local Open Scope string_scope.
Local Set Warnings "-register-all".

(** ** Results and the two monads of the embedding *)

Class Monad (M : Type -> Type) : Type := {
  ret : forall {A : Type}, A -> M A;
  bind : forall {A B : Type}, M A -> (A -> M B) -> M B
}.

Declare Scope py_scope.
Delimit Scope py_scope with py.
Notation "x <- c ;; k" := (bind c (fun x => k))
  (at level 100, c at next level, right associativity) : py_scope.
Notation "' p <- c ;; k" := (bind c (fun x => let p := x in k))
  (at level 100, p pattern, c at next level, right associativity) : py_scope.
Notation "c ;; k" := (bind c (fun _ => k))
  (at level 100, right associativity) : py_scope.
Local Open Scope py_scope.

Module Py.

(** The exceptions that can reach the script.  [SystemExit] is what
    [sys.exit] raises; [JSONDecodeError] carries [str(e)], the text the
    script interpolates in its message. *)
Inductive exn : Type :=
| SystemExit (code : Z)
| JSONDecodeError (detail : string)
| FileNotFoundError
| IsADirectoryError
| PermissionError
| UnicodeDecodeError
| RecursionError
| TypeError
| ValueError
| IndexError.

(** A computation that returns a value or raises. *)
Definition result (A : Type) : Type := (exn + A)%type.

Definition raise {A : Type} (e : exn) : result A := inl e.

#[export] Instance Monad_result : Monad result := {
  ret := fun A a => inr a;
  bind := fun A B c k => match c with inl e => inl e | inr a => k a end
}.

(** The Python values [json.load] produces when every object is replaced by
    the list of its (key, value) tuples.  A [str] is held as the [string]
    of its UTF-8 bytes; its characters are the code points those bytes
    encode ([code_points] below). *)
Inductive pyval : Type :=
| PNone
| PBool (b : bool)
| PInt (z : Z)
| PFloat (f : spec_float)
| PStr (s : string)
| PList (items : list pyval)
| PTuple (items : list pyval).

(** *** Equality of set elements

    [key in keys_seen] finds an element that is the same object as [key] or
    compares equal to it.  [bool], [int] and [float] compare by numeric
    value, exactly; [None] equals only [None]; strings compare character by
    character; tuples compare item by item.  The decoder returns one shared
    object for every NaN, so a NaN is found again by identity. *)

(** A finite number as [(m, e)], standing for m * 2^e. *)
Definition dyadic (v : pyval) : option (Z * Z) :=
  match v with
  | PBool b => Some (Z.b2z b, 0%Z)
  | PInt z => Some (z, 0%Z)
  | PFloat (S754_zero _) => Some (0%Z, 0%Z)
  | PFloat (S754_finite s m e) => Some (if s then Z.neg m else Z.pos m, e)
  | _ => None
  end.

Definition dyadic_eqb (a b : Z * Z) : bool :=
  let '(m, e) := a in
  let '(m', e') := b in
  let k := Z.min e e' in
  (m * 2 ^ (e - k) =? m' * 2 ^ (e' - k))%Z.

Definition same_atom (a b : pyval) : bool :=
  match a, b with
  | PNone, PNone => true
  | PStr s, PStr t => String.eqb s t
  | PFloat S754_nan, PFloat S754_nan => true
  | PFloat (S754_infinity s), PFloat (S754_infinity t) => Bool.eqb s t
  | _, _ =>
      match dyadic a, dyadic b with
      | Some x, Some y => dyadic_eqb x y
      | _, _ => false
      end
  end.

Fixpoint same_key (a b : pyval) {struct a} : bool :=
  match a, b with
  | PTuple xs, PTuple ys | PList xs, PList ys =>
      (fix all2 (xs ys : list pyval) {struct xs} : bool :=
         match xs, ys with
         | [], [] => true
         | x :: xs', y :: ys' => same_key x y && all2 xs' ys'
         | _, _ => false
         end) xs ys
  | PTuple _, _ | PList _, _ | _, PTuple _ | _, PList _ => false
  | _, _ => same_atom a b
  end.

(** [hash(v)] succeeds on everything but lists, and on a tuple when it
    succeeds on every item. *)
Fixpoint hashable (v : pyval) : bool :=
  match v with
  | PList _ => false
  | PTuple items => forallb hashable items
  | _ => true
  end.

(** *** Sets

    A set is the list of its elements, no two of them [same_key]. *)
Definition pyset : Type := list pyval.

Definition set_new : pyset := [].

(** [key in s]: hashes [key] first, so an unhashable key raises even on
    the empty set. *)
Definition set_contains (s : pyset) (key : pyval) : result bool :=
  if hashable key then ret (existsb (same_key key) s) else raise TypeError.

(** [s.add(key)] *)
Definition set_add (s : pyset) (key : pyval) : result pyset :=
  if hashable key
  then ret (if existsb (same_key key) s then s else (s ++ [key])%list)
  else raise TypeError.

(** *** Iteration and unpacking *)

(** A [str] is a sequence of code points.  In UTF-8 a code point is a
    lead byte followed by its continuation bytes, the bytes of the form
    10xxxxxx. *)
Definition continuation (c : ascii) : bool :=
  let 'Ascii _ _ _ _ _ _ b6 b7 := c in b7 && negb b6.

(** From the right: the continuation bytes that still wait for their lead
    byte, and the code points completed so far. *)
Fixpoint split_chars (s : string) : string * list string :=
  match s with
  | EmptyString => (EmptyString, [])
  | String c s' =>
      let '(pending, cs) := split_chars s' in
      if continuation c then (String c pending, cs)
      else (EmptyString, String c pending :: cs)
  end.

(** The characters of a [str], each as the one-character [str] of its
    bytes.  Continuation bytes with no lead byte before them, which no
    encoded text has, are taken as one character. *)
Definition code_points (s : string) : list string :=
  let '(pending, cs) := split_chars s in
  match pending with
  | EmptyString => cs
  | _ => pending :: cs
  end.

(** [len(s)] *)
Definition str_length (s : string) : nat := List.length (code_points s).

(** Iterating over a [str] yields its characters as one-character strs. *)
Definition chars (s : string) : list pyval := map PStr (code_points s).

(** [iter(v)]: the items a [for] loop or an unpacking draws from [v]. *)
Definition iter (v : pyval) : result (list pyval) :=
  match v with
  | PList items | PTuple items => ret items
  | PStr s => ret (chars s)
  | _ => raise TypeError
  end.

(** [key, value = item] *)
Definition unpack2 (item : pyval) : result (pyval * pyval) :=
  items <- iter item ;;
  match items with
  | [key; value] => ret (key, value)
  | _ => raise ValueError
  end.

End Py.

Module Json.
Import Py.

(** ** JSON documents

    A document is the tree of a JSON text.  An object keeps its members in
    the order of the text, repeated names included; a member name is the
    decoded text of the name (escapes already resolved by the decoder).  A
    number literal is kept as the Python number the decoder makes of it: an
    [int] when the literal has neither fraction nor exponent, a [float]
    otherwise (the decoder also reads the words NaN, Infinity and -Infinity
    as floats). *)
Inductive number : Type :=
| Int (z : Z)
| Float (f : spec_float).

Inductive json : Type :=
| JNull
| JBool (b : bool)
| JNumber (n : number)
| JString (s : string)
| JArray (elements : list json)
| JObject (members : list (string * json)).

(** The value [json.load(f, object_pairs_hook=hook)] returns for a document:
    every object, innermost first, is handed to [hook] as the list of its
    (name, value) tuples and replaced by what [hook] returns. *)
Fixpoint load_value (object_pairs_hook : pyval -> pyval) (j : json) : pyval :=
  match j with
  | JNull => PNone
  | JBool b => PBool b
  | JNumber (Int z) => PInt z
  | JNumber (Float f) => PFloat f
  | JString s => PStr s
  | JArray elements => PList (map (load_value object_pairs_hook) elements)
  | JObject members =>
      object_pairs_hook
        (PList (map (fun m => PTuple [PStr (fst m);
                                      load_value object_pairs_hook (snd m)])
                    members))
  end.

(** *** What the claims say about a document *)

(** Some key occurs at two distinct positions of [keys]. *)
Definition repeated {A : Type} (keys : list A) : Prop :=
  exists (i j : nat) (k : A),
    i < j /\ nth_error keys i = Some k /\ nth_error keys j = Some k.

(** The same, decided: is the head among the rest, or a later key repeated? *)
Fixpoint repeatedb (keys : list string) : bool :=
  match keys with
  | [] => false
  | k :: rest => existsb (String.eqb k) rest || repeatedb rest
  end.

Definition names (members : list (string * json)) : list string :=
  map fst members.

(** Some object of the document, at any depth, has a repeated name. *)
Fixpoint has_duplicate (j : json) : bool :=
  match j with
  | JArray elements => existsb has_duplicate elements
  | JObject members =>
      repeatedb (names members)
      || existsb (fun m => has_duplicate (snd m)) members
  | _ => false
  end.

(** The document contains an object, at any depth. *)
Fixpoint has_object (j : json) : bool :=
  match j with
  | JArray elements => existsb has_object elements
  | JObject _ => true
  | _ => false
  end.

Definition is_object (j : json) : bool :=
  match j with JObject _ => true | _ => false end.

End Json.

Module Script.
Import Py Json.

(** ** The world of a run *)

(** An open file, as [json.load] sees it: reading and decoding it raises, or
    it holds a document. *)
Definition file : Type := result json.

(** The filesystem: [open(path, 'r')] raises or returns a file. *)
Definition filesystem : Type := string -> result file.

(** What a run does that can be observed from outside. *)
Inductive event : Type :=
| Opened (path : string)
| Loaded
| Printed (line : string).

(** A statement of the script: it extends the log of events and returns or
    raises. *)
Definition io (A : Type) : Type := list event -> list event * result A.

#[export] Instance Monad_io : Monad io := {
  ret := fun A a log => (log, inr a);
  bind := fun A B c k log =>
    match c log with
    | (log', inl e) => (log', inl e)
    | (log', inr a) => k a log'
    end
}.

Definition emit (ev : event) : io unit :=
  fun log => ((log ++ [ev])%list, inr tt).

Definition throw {A : Type} (e : exn) : io A :=
  fun log => (log, inl e).

Definition lift {A : Type} (r : result A) : io A :=
  fun log => (log, r).

(** [try: body except ...: handler]; a handler re-raises what no [except]
    clause names. *)
Definition try_except {A : Type} (body : io A) (handler : exn -> io A) : io A :=
  fun log =>
    match body log with
    | (log', inl e) => handler e log'
    | (log', inr a) => (log', inr a)
    end.

(** [print(line)] *)
Definition print (line : string) : io unit := emit (Printed line).

(** [sys.exit(code)] *)
Definition sys_exit {A : Type} (code : Z) : io A := throw (SystemExit code).

(** [open(path, 'r')] *)
Definition open_ (fs : filesystem) (path : string) : io file :=
  emit (Opened path) ;; lift (fs path).

(** [json.load(f, object_pairs_hook=hook)] *)
Definition json_load (f : file) (object_pairs_hook : pyval -> pyval) : io pyval :=
  emit Loaded ;;
  j <- lift f ;;
  ret (load_value object_pairs_hook j).

(** [sys.argv[i]] *)
Definition argv_get (argv : list string) (i : nat) : io string :=
  match nth_error argv i with
  | Some a => ret a
  | None => throw IndexError
  end.

(** ** The script *)

(** The [for key, value in pairs] loop of [check_duplicate_keys], over the
    items still to come. *)
Fixpoint for_pairs (keys_seen : pyset) (items : list pyval) : result bool :=
  match items with
  | [] => ret false
  | item :: rest =>
      '(key, value) <- unpack2 item ;;
      found <- set_contains keys_seen key ;;
      if found then ret true
      else keys_seen' <- set_add keys_seen key ;;
           for_pairs keys_seen' rest
  end.

Definition check_duplicate_keys (pairs : pyval) : result bool :=
  let keys_seen := set_new in
  items <- iter pairs ;;
  for_pairs keys_seen items.

Definition usage_message : string :=
  "Usage: python json_dup_key_check.py <json_file>".
Definition duplicate_message (file_path : string) : string :=
  "Duplicate keys found in " ++ file_path.
Definition no_duplicate_message (file_path : string) : string :=
  "No duplicate keys in " ++ file_path.
Definition invalid_json_message (file_path detail : string) : string :=
  "Invalid JSON in " ++ file_path ++ ": " ++ detail.
Definition not_found_message (file_path : string) : string :=
  "File not found: " ++ file_path.

Definition main (argv : list string) (fs : filesystem) : io unit :=
  (if negb (List.length argv =? 2)%nat
   then print usage_message ;; sys_exit 1
   else ret tt) ;;
  file_path <- argv_get argv 1 ;;
  try_except
    (f <- open_ fs file_path ;;
     data <- json_load f (fun pairs => pairs) ;;
     has_dup <- lift (check_duplicate_keys data) ;;
     if has_dup : bool
     then print (duplicate_message file_path) ;; sys_exit 1
     else print (no_duplicate_message file_path) ;; sys_exit 0)
    (fun e =>
       match e with
       | JSONDecodeError detail =>
           print (invalid_json_message file_path detail) ;; sys_exit 1
       | FileNotFoundError =>
           print (not_found_message file_path) ;; sys_exit 1
       | _ => throw e
       end).

(** ** The process *)

(** How the interpreter ends: with the code of a [SystemExit], with 0 when
    the script returns, or with a traceback when an exception is caught by
    nothing. *)
Inductive status : Type :=
| Exited (code : Z)
| Traceback (e : exn).

Record outcome : Type := {
  events : list event;
  ending : status
}.

Definition finish (r : result unit) : status :=
  match r with
  | inr _ => Exited 0
  | inl (SystemExit code) => Exited code
  | inl e => Traceback e
  end.

(** [if __name__ == "__main__": main()] *)
Definition run (argv : list string) (fs : filesystem) : outcome :=
  let '(log, r) := main argv fs [] in
  {| events := log; ending := finish r |}.

(** The exit code of the process: an uncaught exception ends it with 1. *)
Definition exit_code (o : outcome) : Z :=
  match ending o with
  | Exited code => code
  | Traceback _ => 1
  end.

(** The lines on standard output. *)
Definition stdout (o : outcome) : list string :=
  flat_map (fun ev => match ev with Printed line => [line] | _ => [] end)
           (events o).

Definition touches_filesystem (o : outcome) : bool :=
  existsb (fun ev => match ev with Opened _ | Loaded => true | _ => false end)
          (events o).

Definition parses (o : outcome) : bool :=
  existsb (fun ev => match ev with Loaded => true | _ => false end) (events o).

(** [scan]: the scanner of the specification, the part of [main] between
    the file and the message: load with the hook, then check. *)
Definition scan (f : file) : result bool :=
  j <- f ;;
  check_duplicate_keys (load_value (fun pairs => pairs) j).

End Script.

(** ** Vocabulary of the statements *)

Module Statements.
Import Py Json Script.

(** The hook of the script: [lambda pairs: pairs]. *)
Definition hook : pyval -> pyval := fun pairs => pairs.

(** The pair list of one object: its (key, value) tuples in order. *)
Definition pair_list (pairs : list (string * pyval)) : pyval :=
  PList (map (fun p => PTuple [PStr (fst p); snd p]) pairs).

(** The stepwise loop over string keys, with the keys seen so far. *)
Fixpoint seen_again (seen keys : list string) : bool :=
  match keys with
  | [] => false
  | k :: rest =>
      if existsb (String.eqb k) seen then true
      else seen_again (seen ++ [k]) rest
  end.

(** Exceptions that no [except] clause of [main] names and that are not the
    exit itself. *)
Definition other_failure (e : exn) : bool :=
  match e with
  | SystemExit _ | JSONDecodeError _ | FileNotFoundError => false
  | _ => true
  end.

(** Values that unpack into exactly two items: a two-element array, a
    two-member object or a two-character string. *)
Definition two_items (j : json) : bool :=
  match j with
  | JString s => (str_length s =? 2)%nat
  | JArray elements => (List.length elements =? 2)%nat
  | JObject members => (List.length members =? 2)%nat
  | _ => false
  end.

(** Numbers, booleans and null. *)
Definition scalar (j : json) : bool :=
  match j with
  | JNull | JBool _ | JNumber _ => true
  | _ => false
  end.

(** An exception [e] arises inside the [try] block of [main]: from [open],
    from [json.load], or from [check_duplicate_keys] on the loaded value. *)
Definition fails_with (fs : filesystem) (path : string) (e : exn) : Prop :=
  fs path = inl e
  \/ fs path = inr (inl e)
  \/ exists j : json,
       fs path = inr (inr j)
       /\ check_duplicate_keys (load_value hook j) = inl e.

(** The run ends with the traceback of [e], exit code 1, and nothing on
    standard output. *)
Definition uncaught (o : outcome) (e : exn) : Prop :=
  ending o = Traceback e /\ stdout o = [] /\ exit_code o = 1%Z.

(** A filesystem with one file. *)
Definition single_file (name : string) (f : file) : filesystem :=
  fun path => if String.eqb path name then inr f else inl FileNotFoundError.

(** [{"a": {"x": 1, "x": 2}, "b": 3}] *)
Definition nested_duplicate_doc : json :=
  JObject [("a", JObject [("x", JNumber (Int 1)); ("x", JNumber (Int 2))]);
           ("b", JNumber (Int 3))].

(** [[["a", 1], ["a", 2]]] *)
Definition pair_array_doc : json :=
  JArray [JArray [JString "a"; JNumber (Int 1)];
          JArray [JString "a"; JNumber (Int 2)]].

(** Neither [open] nor [json.load] raises SystemExit: only the script
    itself ends the process with an exit code. *)
Definition orderly (fs : filesystem) : Prop :=
  forall (path : string) (code : Z),
    fs path <> inl (SystemExit code)
    /\ fs path <> inr (inl (SystemExit code)).

(** The array of two-element arrays [[name, value], ...] with the members
    of an object. *)
Definition pair_array (members : list (string * json)) : list json :=
  map (fun m => JArray [JString (fst m); snd m]) members.

(** Arrays and objects: the values that load as Python lists. *)
Definition container (j : json) : bool :=
  match j with
  | JArray _ | JObject _ => true
  | _ => false
  end.

(** U+00E9 (e with acute accent): one character, the two bytes C3 A9. *)
Definition e_acute : string :=
  String (ascii_of_nat 195) (String (ascii_of_nat 169) EmptyString).

(** U+20AC (euro sign) followed by x: two characters, the four bytes
    E2 82 AC 78. *)
Definition euro_x : string :=
  String (ascii_of_nat 226)
    (String (ascii_of_nat 130) (String (ascii_of_nat 172) "x")).

(** The paths a run opened, in order. *)
Definition opened (o : outcome) : list string :=
  flat_map (fun ev => match ev with Opened path => [path] | _ => [] end)
           (events o).

End Statements.

(** ** Properties *)

Import Py Json Script Statements.

(** *** The loop of [check_duplicate_keys] on string keys *)

Lemma existsb_same_key_str (k : string) (seen : list string) :
  existsb (same_key (PStr k)) (map PStr seen) = existsb (String.eqb k) seen.
Proof.
  induction seen as [|s seen IH]; cbn [map existsb]; [reflexivity|].
  rewrite IH. reflexivity.
Qed.

Lemma for_pairs_strings (pairs : list (string * pyval)) :
  forall seen : list string,
    for_pairs (map PStr seen)
              (map (fun p => PTuple [PStr (fst p); snd p]) pairs)
    = inr (seen_again seen (map fst pairs)).
Proof.
  induction pairs as [|[k v] pairs IH]; intros seen; [reflexivity|].
  cbn [map for_pairs fst snd seen_again].
  cbn [unpack2 iter bind ret Monad_result].
  unfold set_contains, set_add.
  cbn [hashable bind ret Monad_result].
  rewrite existsb_same_key_str.
  destruct (existsb (String.eqb k) seen); [reflexivity|].
  replace (map PStr seen ++ [PStr k])%list with (map PStr (seen ++ [k])).
  - apply IH.
  - now rewrite map_app.
Qed.

Lemma check_pair_list (pairs : list (string * pyval)) :
  check_duplicate_keys (pair_list pairs) = inr (seen_again [] (map fst pairs)).
Proof.
  unfold check_duplicate_keys, pair_list, set_new.
  cbn [iter bind ret Monad_result].
  exact (for_pairs_strings pairs []).
Qed.

(** The loop with a set of seen keys against the direct definition. *)
Lemma seen_again_spec (keys : list string) :
  forall seen,
    seen_again seen keys
    = existsb (fun k => existsb (String.eqb k) seen) keys || repeatedb keys.
Proof.
  induction keys as [|k keys IH]; intros seen; [reflexivity|].
  cbn [seen_again existsb repeatedb].
  destruct (existsb (String.eqb k) seen) eqn:Hk; [reflexivity|].
  rewrite IH. cbn [orb].
  assert (Hex : existsb (fun k0 => existsb (String.eqb k0) (seen ++ [k])) keys
                = existsb (fun k0 => existsb (String.eqb k0) seen) keys
                  || existsb (String.eqb k) keys).
  { clear IH Hk. induction keys as [|a keys IHk]; [reflexivity|].
    cbn [existsb]. rewrite IHk, existsb_app. cbn [existsb].
    rewrite (String.eqb_sym k a).
    destruct (existsb (String.eqb a) seen), (String.eqb a k),
      (existsb (fun k0 => existsb (String.eqb k0) seen) keys),
      (existsb (String.eqb k) keys); reflexivity. }
  rewrite Hex.
  destruct (existsb (fun k0 => existsb (String.eqb k0) seen) keys),
    (existsb (String.eqb k) keys), (repeatedb keys); reflexivity.
Qed.

Lemma existsb_eqb_nth (k : string) (keys : list string) :
  existsb (String.eqb k) keys = true <-> exists j, nth_error keys j = Some k.
Proof.
  rewrite existsb_exists. split.
  - intros [x [Hin Heq]]. apply String.eqb_eq in Heq. subst x.
    now apply In_nth_error.
  - intros [j Hj]. exists k. split; [eapply nth_error_In; eauto|].
    apply String.eqb_refl.
Qed.

Lemma repeatedb_spec (keys : list string) :
  repeatedb keys = true <-> repeated keys.
Proof.
  induction keys as [|k keys IH].
  - split; [discriminate|]. intros (i & j & x & _ & Hi & _).
    destruct i; discriminate.
  - cbn [repeatedb]. rewrite orb_true_iff, IH, existsb_eqb_nth. split.
    + intros [[j Hj] | (i & j & x & Hlt & Hi & Hj)].
      * exists 0, (S j), k. repeat split; [lia | assumption].
      * exists (S i), (S j), x. repeat split; [lia | assumption | assumption].
    + intros (i & j & x & Hlt & Hi & Hj).
      destruct j as [|j]; [lia|]. cbn in Hj.
      destruct i as [|i].
      * cbn in Hi. injection Hi as ->. left. now exists j.
      * cbn in Hi. right. exists i, j, x. repeat split; [lia | assumption | assumption].
Qed.

(** C3: on one ordered pair sequence, the loop with the set of keys seen so
    far returns a result, and returns True exactly when some key occurs at two
    distinct positions i < j of the sequence. *)
Theorem C3_loop_refines_declarative (pairs : list (string * pyval)) :
  exists b : bool,
    check_duplicate_keys (pair_list pairs) = inr b
    /\ (b = true <->
        exists (i j : nat) (k : string),
          i < j
          /\ nth_error (map fst pairs) i = Some k
          /\ nth_error (map fst pairs) j = Some k).
Proof.
  exists (seen_again [] (map fst pairs)). split.
  - apply check_pair_list.
  - rewrite seen_again_spec.
    assert (H0 : existsb (fun k => existsb (String.eqb k) []) (map fst pairs)
                 = false).
    { induction (map fst pairs) as [|a l IHl]; [reflexivity | exact IHl]. }
    rewrite H0. cbn [orb]. apply repeatedb_spec.
Qed.

(** *** Objects under the hook of the script *)

Lemma load_object (members : list (string * json)) :
  load_value hook (JObject members)
  = pair_list (map (fun m => (fst m, load_value hook (snd m))) members).
Proof.
  unfold pair_list, hook. cbn [load_value]. now rewrite map_map.
Qed.

Lemma check_object (members : list (string * json)) :
  check_duplicate_keys (load_value hook (JObject members))
  = inr (repeatedb (names members)).
Proof.
  rewrite load_object, check_pair_list, map_map. cbn [fst].
  rewrite seen_again_spec. unfold names.
  assert (H0 : forall l : list string,
             existsb (fun k => existsb (String.eqb k) []) l = false).
  { induction l as [|a l IHl]; [reflexivity | exact IHl]. }
  now rewrite H0.
Qed.

(** C4: keys are compared as decoded strings, character by character and
    with no normalization: an object is reported exactly when two of its
    members, at positions i < j, have the same decoded name; two members
    count as duplicates exactly when their decoded names are the same
    string, so names that differ in case or in surrounding white space are
    not duplicates. *)
Theorem C4_exact_string_equality :
  (forall members : list (string * json),
      check_duplicate_keys (load_value hook (JObject members)) = inr true
      <-> exists (i j : nat) (k : string),
            i < j
            /\ nth_error (names members) i = Some k
            /\ nth_error (names members) j = Some k)
  /\ (forall (k1 k2 : string) (v1 v2 : json),
         check_duplicate_keys (load_value hook (JObject [(k1, v1); (k2, v2)]))
         = inr (String.eqb k1 k2)
         /\ (String.eqb k1 k2 = true <-> k1 = k2))
  /\ check_duplicate_keys
       (load_value hook (JObject [("a", JNull); ("a", JNull)])) = inr true
  /\ check_duplicate_keys
       (load_value hook (JObject [("A", JNull); ("a", JNull)])) = inr false
  /\ check_duplicate_keys
       (load_value hook (JObject [(" a", JNull); ("a", JNull)])) = inr false
  /\ check_duplicate_keys
       (load_value hook (JObject [("a ", JNull); ("a", JNull)])) = inr false.
Proof.
  split.
  { intros members. rewrite check_object.
    fold (repeated (names members)). rewrite <- repeatedb_spec.
    split; [now intros [= ->] | now intros ->]. }
  split; [|repeat split; reflexivity].
  intros k1 k2 v1 v2. split; [|apply String.eqb_eq].
  rewrite check_object. cbn [names map fst repeatedb existsb].
  now rewrite !orb_false_r.
Qed.

(** *** Runs with a path argument *)

Ltac step_main :=
  unfold run, main, open_, json_load, argv_get, try_except, print, sys_exit,
    emit, throw, lift;
  cbn [List.length Nat.eqb negb nth_error bind ret Monad_io app].

(** [open] raises. *)
Lemma run_open_raises (prog path : string) (fs : filesystem) (e : exn) :
  fs path = inl e ->
  run [prog; path] fs =
  match e with
  | JSONDecodeError detail =>
      {| events := [Opened path; Printed (invalid_json_message path detail)];
         ending := Exited 1 |}
  | FileNotFoundError =>
      {| events := [Opened path; Printed (not_found_message path)];
         ending := Exited 1 |}
  | _ => {| events := [Opened path]; ending := finish (inl e) |}
  end.
Proof.
  intros H. step_main. rewrite H. destruct e; reflexivity.
Qed.

(** [json.load] raises. *)
Lemma run_load_raises (prog path : string) (fs : filesystem) (e : exn) :
  fs path = inr (inl e) ->
  run [prog; path] fs =
  match e with
  | JSONDecodeError detail =>
      {| events := [Opened path; Loaded;
                    Printed (invalid_json_message path detail)];
         ending := Exited 1 |}
  | FileNotFoundError =>
      {| events := [Opened path; Loaded; Printed (not_found_message path)];
         ending := Exited 1 |}
  | _ => {| events := [Opened path; Loaded]; ending := finish (inl e) |}
  end.
Proof.
  intros H. step_main. rewrite H. destruct e; reflexivity.
Qed.

(** [check_duplicate_keys] raises. *)
Lemma run_check_raises (prog path : string) (fs : filesystem) (j : json)
      (e : exn) :
  fs path = inr (inr j) ->
  check_duplicate_keys (load_value hook j) = inl e ->
  run [prog; path] fs =
  match e with
  | JSONDecodeError detail =>
      {| events := [Opened path; Loaded;
                    Printed (invalid_json_message path detail)];
         ending := Exited 1 |}
  | FileNotFoundError =>
      {| events := [Opened path; Loaded; Printed (not_found_message path)];
         ending := Exited 1 |}
  | _ => {| events := [Opened path; Loaded]; ending := finish (inl e) |}
  end.
Proof.
  intros H Hc. step_main. rewrite H. cbn [bind ret Monad_io app].
  unfold hook in Hc. rewrite Hc. destruct e; reflexivity.
Qed.

(** [check_duplicate_keys] returns. *)
Lemma run_check_returns (prog path : string) (fs : filesystem) (j : json)
      (b : bool) :
  fs path = inr (inr j) ->
  check_duplicate_keys (load_value hook j) = inr b ->
  run [prog; path] fs =
  {| events := [Opened path; Loaded;
                Printed (if b then duplicate_message path
                         else no_duplicate_message path)];
     ending := Exited (if b then 1 else 0) |}.
Proof.
  intros H Hc. step_main. rewrite H. cbn [bind ret Monad_io app].
  unfold hook in Hc. rewrite Hc. destruct b; reflexivity.
Qed.

(** A top-level object with a repeated name of its own is reported. *)
Lemma top_level_duplicate_reported (prog path : string) (fs : filesystem)
      (members : list (string * json)) :
  fs path = inr (inr (JObject members)) ->
  repeated (names members) ->
  run [prog; path] fs
  = {| events := [Opened path; Loaded; Printed (duplicate_message path)];
       ending := Exited 1 |}.
Proof.
  intros Hfs Hrep. apply repeatedb_spec in Hrep.
  apply (run_check_returns prog path fs (JObject members) true Hfs).
  now rewrite check_object, Hrep.
Qed.

(** A command line that is not exactly one path. *)
Lemma run_wrong_arity (argv : list string) (fs : filesystem) :
  List.length argv <> 2 ->
  run argv fs = {| events := [Printed usage_message]; ending := Exited 1 |}.
Proof.
  intros H. unfold run, main.
  destruct (Nat.eqb_spec (List.length argv) 2) as [Heq|_]; [contradiction|].
  reflexivity.
Qed.

(** *** Nested objects *)

(** C1, evaluated where it fails: in [{"a": {"x": 1, "x": 2}, "b": 3}] the
    inner object repeats "x", yet [check_duplicate_keys] sees only the outer
    names "a" and "b", returns False, and the run reports no duplicate and
    exits 0. *)
Theorem C1_nested_duplicate_not_reported :
  has_duplicate nested_duplicate_doc = true
  /\ load_value hook nested_duplicate_doc
     = PList [PTuple [PStr "a";
                      PList [PTuple [PStr "x"; PInt 1];
                             PTuple [PStr "x"; PInt 2]]];
              PTuple [PStr "b"; PInt 3]]
  /\ scan (inr nested_duplicate_doc) = inr false
  /\ run ["json_dup_key_check.py"; "app.json"]
         (single_file "app.json" (inr nested_duplicate_doc))
     = {| events := [Opened "app.json"; Loaded;
                     Printed "No duplicate keys in app.json"];
          ending := Exited 0 |}.
Proof.
  repeat split; reflexivity.
Qed.

(** *** Documents without repeated names *)

(** C2 as stated fails on a document that is not an object: the document
    [5] has no object and so no repeated name, but iterating over the int
    raises TypeError, nothing is printed and the process ends with a
    traceback and exit code 1. *)
Lemma C2_counterexample_top_level_number :
  has_duplicate (JNumber (Int 5)) = false
  /\ scan (inr (JNumber (Int 5))) = inl TypeError
  /\ run ["json_dup_key_check.py"; "app.json"]
         (single_file "app.json" (inr (JNumber (Int 5))))
     = {| events := [Opened "app.json"; Loaded];
          ending := Traceback TypeError |}
  /\ ~ (scan (inr (JNumber (Int 5))) = inr false
        /\ stdout (run ["json_dup_key_check.py"; "app.json"]
                       (single_file "app.json" (inr (JNumber (Int 5)))))
           = [no_duplicate_message "app.json"]
        /\ exit_code (run ["json_dup_key_check.py"; "app.json"]
                          (single_file "app.json" (inr (JNumber (Int 5)))))
           = 0%Z).
Proof.
  repeat split; try reflexivity.
  intros (H & _). discriminate H.
Qed.

(** C2, amended: for every document whose top-level value is an object and
    in which no object at any depth has a repeated name, the scan returns
    False, the run prints the no-duplicate message and exits with code 0. *)
Theorem C2_object_without_duplicates (prog path : string) (fs : filesystem)
        (members : list (string * json)) :
  fs path = inr (inr (JObject members)) ->
  has_duplicate (JObject members) = false ->
  scan (inr (JObject members)) = inr false
  /\ stdout (run [prog; path] fs) = ["No duplicate keys in " ++ path]
  /\ exit_code (run [prog; path] fs) = 0%Z.
Proof.
  intros Hfs Hdup. cbn [has_duplicate] in Hdup.
  apply orb_false_iff in Hdup. destruct Hdup as [Hnames _].
  assert (Hc : check_duplicate_keys (load_value hook (JObject members))
               = inr false).
  { now rewrite check_object, Hnames. }
  split; [exact Hc|].
  rewrite (run_check_returns prog path fs _ false Hfs Hc).
  split; reflexivity.
Qed.

Lemma C2_object_without_duplicates_witness :
  single_file "app.json" (inr (JObject [("a", JNumber (Int 1));
                                        ("b", JNumber (Int 2))])) "app.json"
  = inr (inr (JObject [("a", JNumber (Int 1)); ("b", JNumber (Int 2))]))
  /\ has_duplicate (JObject [("a", JNumber (Int 1)); ("b", JNumber (Int 2))])
     = false
  /\ (scan (inr (JObject [("a", JNumber (Int 1)); ("b", JNumber (Int 2))]))
      = inr false
      /\ stdout (run ["json_dup_key_check.py"; "app.json"]
                     (single_file "app.json"
                        (inr (JObject [("a", JNumber (Int 1));
                                       ("b", JNumber (Int 2))]))))
         = ["No duplicate keys in " ++ "app.json"]
      /\ exit_code (run ["json_dup_key_check.py"; "app.json"]
                        (single_file "app.json"
                           (inr (JObject [("a", JNumber (Int 1));
                                          ("b", JNumber (Int 2))]))))
         = 0%Z).
Proof.
  split; [reflexivity|]. split; [reflexivity|].
  apply (C2_object_without_duplicates
           "json_dup_key_check.py" "app.json"
           (single_file "app.json"
              (inr (JObject [("a", JNumber (Int 1)); ("b", JNumber (Int 2))])))
           [("a", JNumber (Int 1)); ("b", JNumber (Int 2))]);
    reflexivity.
Defined.

(** *** The error messages *)

(** C5: when the file is not JSON, that is when [json.load] raises
    JSONDecodeError, the scan fails with that error, the run prints exactly
    "Invalid JSON in {file_path}: {detail}" and exits with code 1; the
    failure is not the duplicate-found result and the line is not the
    duplicate-found message of any path. *)
Theorem C5_invalid_json (prog path detail : string) (fs : filesystem) :
  fs path = inr (inl (JSONDecodeError detail)) ->
  scan (inl (JSONDecodeError detail)) = inl (JSONDecodeError detail)
  /\ scan (inl (JSONDecodeError detail)) <> inr true
  /\ stdout (run [prog; path] fs)
     = ["Invalid JSON in " ++ path ++ ": " ++ detail]
  /\ exit_code (run [prog; path] fs) = 1%Z
  /\ (forall p : string,
         "Invalid JSON in " ++ path ++ ": " ++ detail <> duplicate_message p).
Proof.
  intros Hfs. rewrite (run_load_raises prog path fs _ Hfs).
  repeat split; try reflexivity; discriminate.
Qed.

Lemma C5_invalid_json_witness :
  single_file "app.json"
    (inl (JSONDecodeError "Expecting value: line 1 column 1 (char 0)"))
    "app.json"
  = inr (inl (JSONDecodeError "Expecting value: line 1 column 1 (char 0)"))
  /\ stdout (run ["json_dup_key_check.py"; "app.json"]
                 (single_file "app.json"
                    (inl (JSONDecodeError
                            "Expecting value: line 1 column 1 (char 0)"))))
     = ["Invalid JSON in app.json: Expecting value: line 1 column 1 (char 0)"]
  /\ exit_code (run ["json_dup_key_check.py"; "app.json"]
                    (single_file "app.json"
                       (inl (JSONDecodeError
                               "Expecting value: line 1 column 1 (char 0)"))))
     = 1%Z.
Proof.
  split; [reflexivity|].
  destruct (C5_invalid_json
              "json_dup_key_check.py" "app.json"
              "Expecting value: line 1 column 1 (char 0)"
              (single_file "app.json"
                 (inl (JSONDecodeError
                         "Expecting value: line 1 column 1 (char 0)")))
              eq_refl) as (_ & _ & Hout & Hcode & _).
  split; [exact Hout | exact Hcode].
Defined.

(** C6: when the path names no file, that is when [open] raises
    FileNotFoundError, the run prints exactly "File not found: {file_path}",
    exits with code 1, and never calls [json.load]. *)
Theorem C6_file_not_found (prog path : string) (fs : filesystem) :
  fs path = inl FileNotFoundError ->
  stdout (run [prog; path] fs) = ["File not found: " ++ path]
  /\ exit_code (run [prog; path] fs) = 1%Z
  /\ parses (run [prog; path] fs) = false
  /\ events (run [prog; path] fs)
     = [Opened path; Printed ("File not found: " ++ path)].
Proof.
  intros Hfs. rewrite (run_open_raises prog path fs _ Hfs).
  repeat split; reflexivity.
Qed.

Lemma C6_file_not_found_witness :
  single_file "app.json" (inr JNull) "/tmp/does-not-exist.json"
  = inl FileNotFoundError
  /\ stdout (run ["json_dup_key_check.py"; "/tmp/does-not-exist.json"]
                 (single_file "app.json" (inr JNull)))
     = ["File not found: /tmp/does-not-exist.json"]
  /\ exit_code (run ["json_dup_key_check.py"; "/tmp/does-not-exist.json"]
                    (single_file "app.json" (inr JNull)))
     = 1%Z
  /\ parses (run ["json_dup_key_check.py"; "/tmp/does-not-exist.json"]
                 (single_file "app.json" (inr JNull)))
     = false.
Proof.
  split; [reflexivity|].
  destruct (C6_file_not_found
              "json_dup_key_check.py" "/tmp/does-not-exist.json"
              (single_file "app.json" (inr JNull))
              eq_refl) as (Hout & Hcode & Hparse & _).
  repeat split; assumption.
Defined.

(** C7: when the command line is not the program name followed by exactly
    one argument, the run prints exactly the usage line, exits with code 1,
    and neither opens nor loads a file. *)
Theorem C7_usage_error (argv : list string) (fs : filesystem) :
  List.length argv <> 2 ->
  stdout (run argv fs) = ["Usage: python json_dup_key_check.py <json_file>"]
  /\ exit_code (run argv fs) = 1%Z
  /\ touches_filesystem (run argv fs) = false.
Proof.
  intros H. rewrite (run_wrong_arity argv fs H). repeat split; reflexivity.
Qed.

Lemma C7_usage_error_witness :
  (List.length ["json_dup_key_check.py"] <> 2
   /\ stdout (run ["json_dup_key_check.py"]
                  (single_file "app.json" (inr JNull)))
      = ["Usage: python json_dup_key_check.py <json_file>"]
   /\ exit_code (run ["json_dup_key_check.py"]
                     (single_file "app.json" (inr JNull)))
      = 1%Z)
  /\ (List.length ["json_dup_key_check.py"; "app.json"; "b.json"] <> 2
      /\ stdout (run ["json_dup_key_check.py"; "app.json"; "b.json"]
                     (single_file "app.json" (inr JNull)))
         = ["Usage: python json_dup_key_check.py <json_file>"]
      /\ touches_filesystem
           (run ["json_dup_key_check.py"; "app.json"; "b.json"]
                (single_file "app.json" (inr JNull)))
         = false).
Proof.
  assert (H1 : List.length ["json_dup_key_check.py"] <> 2)
    by (cbn; discriminate).
  assert (H3 : List.length ["json_dup_key_check.py"; "app.json"; "b.json"]
               <> 2)
    by (cbn; discriminate).
  split.
  - split; [exact H1|].
    destruct (C7_usage_error ["json_dup_key_check.py"]
                (single_file "app.json" (inr JNull)) H1)
      as (Hout & Hcode & _).
    split; assumption.
  - split; [exact H3|].
    destruct (C7_usage_error ["json_dup_key_check.py"; "app.json"; "b.json"]
                (single_file "app.json" (inr JNull)) H3)
      as (Hout & _ & Htouch).
    split; assumption.
Defined.

(** *** Two runs *)

(** C8: the outcome of a run is a function of the command line and of what
    the named path holds: two runs with the same command line, on
    filesystems that agree on that path, end with the same exit code and
    the same printed lines (and the same events altogether). *)
Theorem C8_deterministic (argv : list string) (fs1 fs2 : filesystem) :
  (forall path : string, nth_error argv 1 = Some path -> fs1 path = fs2 path) ->
  exit_code (run argv fs1) = exit_code (run argv fs2)
  /\ stdout (run argv fs1) = stdout (run argv fs2)
  /\ run argv fs1 = run argv fs2.
Proof.
  intros Hsame.
  assert (Hrun : run argv fs1 = run argv fs2).
  { destruct (Nat.eq_dec (List.length argv) 2) as [Hlen|Hlen].
    - destruct argv as [|prog [|path [|extra argv]]]; try discriminate Hlen.
      specialize (Hsame path eq_refl).
      step_main. now rewrite Hsame.
    - now rewrite !run_wrong_arity. }
  now rewrite Hrun.
Qed.

Lemma C8_deterministic_witness :
  (forall path : string,
      nth_error ["json_dup_key_check.py"; "app.json"] 1 = Some path ->
      single_file "app.json" (inr nested_duplicate_doc) path
      = (fun p => if String.eqb p "app.json"
                  then inr (inr nested_duplicate_doc)
                  else inl PermissionError) path)
  /\ exit_code (run ["json_dup_key_check.py"; "app.json"]
                    (single_file "app.json" (inr nested_duplicate_doc)))
     = exit_code (run ["json_dup_key_check.py"; "app.json"]
                      (fun p => if String.eqb p "app.json"
                                then inr (inr nested_duplicate_doc)
                                else inl PermissionError))
  /\ stdout (run ["json_dup_key_check.py"; "app.json"]
                 (single_file "app.json" (inr nested_duplicate_doc)))
     = stdout (run ["json_dup_key_check.py"; "app.json"]
                   (fun p => if String.eqb p "app.json"
                             then inr (inr nested_duplicate_doc)
                             else inl PermissionError)).
Proof.
  assert (H : forall path : string,
             nth_error ["json_dup_key_check.py"; "app.json"] 1 = Some path ->
             single_file "app.json" (inr nested_duplicate_doc) path
             = (fun p => if String.eqb p "app.json"
                         then inr (inr nested_duplicate_doc)
                         else inl PermissionError) path).
  { intros path Hp. injection Hp as <-. reflexivity. }
  split; [exact H|].
  destruct (C8_deterministic
              ["json_dup_key_check.py"; "app.json"]
              (single_file "app.json" (inr nested_duplicate_doc))
              (fun p => if String.eqb p "app.json"
                        then inr (inr nested_duplicate_doc)
                        else inl PermissionError)
              H) as (Hcode & Hout & _).
  split; assumption.
Defined.

(** *** Exceptions that are not caught *)

Lemma run_other_failure (prog path : string) (fs : filesystem) (e : exn) :
  fails_with fs path e ->
  other_failure e = true ->
  uncaught (run [prog; path] fs) e.
Proof.
  intros [Hopen | [Hload | (j & Hfs & Hcheck)]] Hother; unfold uncaught.
  - rewrite (run_open_raises prog path fs e Hopen).
    destruct e; try discriminate Hother; repeat split; reflexivity.
  - rewrite (run_load_raises prog path fs e Hload).
    destruct e; try discriminate Hother; repeat split; reflexivity.
  - rewrite (run_check_raises prog path fs j e Hfs Hcheck).
    destruct e; try discriminate Hother; repeat split; reflexivity.
Qed.

Lemma check_scalar (j : json) :
  scalar j = true ->
  check_duplicate_keys (load_value hook j) = inl TypeError.
Proof.
  destruct j as [| b | [z | f] | s | elements | members];
    (discriminate || reflexivity).
Qed.

(** Every character of a [str] is a [str] of one character. *)
Lemma split_chars_single (s : string) :
  split_chars (fst (split_chars s)) = (fst (split_chars s), [])
  /\ Forall (fun g => code_points g = [g]) (snd (split_chars s)).
Proof.
  induction s as [|c s [IHp IHc]].
  - split; [reflexivity | constructor].
  - cbn [split_chars]. destruct (split_chars s) as [pending cs].
    cbn [fst snd] in IHp, IHc.
    destruct (continuation c) eqn:Hc; cbn [fst snd].
    + split; [|exact IHc]. cbn [split_chars]. now rewrite IHp, Hc.
    + split; [reflexivity|]. constructor; [|exact IHc].
      unfold code_points. cbn [split_chars]. now rewrite IHp, Hc.
Qed.

Lemma code_points_single (s : string) :
  Forall (fun g => code_points g = [g]) (code_points s).
Proof.
  destruct (split_chars_single s) as [Hp Hc].
  unfold code_points at 2. destruct (split_chars s) as [pending cs].
  cbn [fst snd] in Hp, Hc.
  destruct pending as [|c pending]; [exact Hc|].
  constructor; [|exact Hc]. unfold code_points. now rewrite Hp.
Qed.

Lemma code_points_nonempty (s : string) :
  s <> EmptyString -> code_points s <> [].
Proof.
  destruct s as [|c s]; [contradiction|]. intros _.
  unfold code_points. cbn [split_chars].
  destruct (split_chars s) as [pending cs].
  destruct (continuation c); discriminate.
Qed.

Lemma check_nonempty_string (s : string) :
  s <> EmptyString ->
  check_duplicate_keys (load_value hook (JString s)) = inl ValueError.
Proof.
  intros Hs. apply code_points_nonempty in Hs.
  pose proof (code_points_single s) as Hsingle.
  unfold check_duplicate_keys. cbn [load_value iter bind ret Monad_result].
  unfold chars.
  destruct (code_points s) as [|g rest]; [contradiction|].
  inversion Hsingle as [|g' rest' Hg _]; subst.
  cbn [map for_pairs]. unfold unpack2. cbn [iter bind ret Monad_result].
  unfold chars. now rewrite Hg.
Qed.

Lemma unpack2_wrong_length (items : list pyval) :
  (List.length items =? 2)%nat = false ->
  (items' <- ret items ;;
   match items' with
   | [key; value] => ret (key, value)
   | _ => raise ValueError
   end) = inl ValueError.
Proof.
  destruct items as [|a [|b [|c items]]]; try reflexivity. discriminate.
Qed.

Lemma length_chars (s : string) : List.length (chars s) = str_length s.
Proof.
  unfold chars, str_length. apply length_map.
Qed.

Lemma unpack2_not_two_items (x : json) :
  two_items x = false ->
  unpack2 (load_value hook x)
  = inl (if scalar x then TypeError else ValueError).
Proof.
  destruct x as [| b | [z | f] | s | elements | members]; cbn [two_items scalar];
    intros H; try reflexivity.
  - unfold unpack2. cbn [load_value iter].
    apply unpack2_wrong_length. now rewrite length_chars.
  - unfold unpack2. cbn [load_value iter].
    apply unpack2_wrong_length. now rewrite length_map.
  - unfold unpack2, hook. cbn [load_value iter].
    apply unpack2_wrong_length. now rewrite length_map.
Qed.

Lemma check_array_first (x : json) (rest : list json) (e : exn) :
  unpack2 (load_value hook x) = inl e ->
  check_duplicate_keys (load_value hook (JArray (x :: rest))) = inl e.
Proof.
  intros H. unfold check_duplicate_keys.
  cbn [load_value map iter bind ret Monad_result for_pairs].
  now rewrite H.
Qed.

(** Characters are counted as code points, not bytes: the single
    character U+00E9 does not unpack into two items, the two characters
    U+20AC and x do. *)
Lemma unpacking_counts_code_points :
  str_length e_acute = 1 /\ String.length e_acute = 2
  /\ str_length euro_x = 2 /\ String.length euro_x = 4
  /\ scan (inr (JArray [JString e_acute])) = inl ValueError
  /\ scan (inr (JArray [JString euro_x])) = inr false
  /\ run ["json_dup_key_check.py"; "app.json"]
         (single_file "app.json" (inr (JArray [JString euro_x])))
     = {| events := [Opened "app.json"; Loaded;
                     Printed "No duplicate keys in app.json"];
          ending := Exited 0 |}.
Proof.
  repeat split; reflexivity.
Qed.

(** C9 as stated fails on the empty string: the document of the empty
    string has a top-level value that is a string, not an object, but a loop
    over the empty string runs no iteration, so nothing is raised and the run
    prints the no-duplicate message and exits 0.  Likewise [["ab"]], an array
    whose one element is not a two-element array: the two characters unpack
    into key and value. *)
Lemma C9_counterexample_empty_string :
  is_object (JString EmptyString) = false
  /\ scan (inr (JString EmptyString)) = inr false
  /\ run ["json_dup_key_check.py"; "app.json"]
         (single_file "app.json" (inr (JString EmptyString)))
     = {| events := [Opened "app.json"; Loaded;
                     Printed "No duplicate keys in app.json"];
          ending := Exited 0 |}
  /\ ~ (exists e : exn,
           uncaught (run ["json_dup_key_check.py"; "app.json"]
                         (single_file "app.json" (inr (JString EmptyString))))
                    e)
  /\ scan (inr (JArray [JString "ab"])) = inr false
  /\ run ["json_dup_key_check.py"; "app.json"]
         (single_file "app.json" (inr (JArray [JString "ab"])))
     = {| events := [Opened "app.json"; Loaded;
                     Printed "No duplicate keys in app.json"];
          ending := Exited 0 |}.
Proof.
  repeat split; try reflexivity.
  intros [e (He & _)]. discriminate He.
Qed.

(** C9, amended: [main] catches only JSONDecodeError and FileNotFoundError.
    Any other exception raised by [open], by [json.load] or by
    [check_duplicate_keys] ends the process with a traceback and exit code 1
    and with nothing printed.  Such exceptions arise for valid documents:
    a top-level number, true, false or null raises TypeError, a non-empty
    top-level string raises ValueError, and a non-empty array none of whose
    elements unpacks into exactly two items (a two-element array, a
    two-member object or a string of two characters) raises TypeError or
    ValueError at its first element.  They also arise for a path that is a
    directory and for contents that are not UTF-8. *)
Theorem C9_other_failures_propagate :
  (forall (prog path : string) (fs : filesystem) (e : exn),
      fails_with fs path e ->
      other_failure e = true ->
      uncaught (run [prog; path] fs) e)
  /\ (forall (prog path : string) (fs : filesystem) (j : json),
         scalar j = true ->
         fs path = inr (inr j) ->
         scan (inr j) = inl TypeError
         /\ uncaught (run [prog; path] fs) TypeError)
  /\ (forall (prog path : string) (fs : filesystem) (s : string),
         s <> EmptyString ->
         fs path = inr (inr (JString s)) ->
         scan (inr (JString s)) = inl ValueError
         /\ uncaught (run [prog; path] fs) ValueError)
  /\ (forall (prog path : string) (fs : filesystem)
             (x : json) (rest : list json),
         forallb (fun y => negb (two_items y)) (x :: rest) = true ->
         fs path = inr (inr (JArray (x :: rest))) ->
         scan (inr (JArray (x :: rest)))
         = inl (if scalar x then TypeError else ValueError)
         /\ uncaught (run [prog; path] fs)
                     (if scalar x then TypeError else ValueError))
  /\ (forall (prog path : string) (fs : filesystem),
         fs path = inl IsADirectoryError ->
         uncaught (run [prog; path] fs) IsADirectoryError)
  /\ (forall (prog path : string) (fs : filesystem),
         fs path = inr (inl UnicodeDecodeError) ->
         uncaught (run [prog; path] fs) UnicodeDecodeError).
Proof.
  split; [exact run_other_failure|].
  split.
  { intros prog path fs j Hj Hfs.
    split; [now apply check_scalar|].
    apply run_other_failure; [|reflexivity].
    right. right. exists j. split; [exact Hfs | now apply check_scalar]. }
  split.
  { intros prog path fs s Hs Hfs.
    split; [now apply check_nonempty_string|].
    apply run_other_failure; [|reflexivity].
    right. right. exists (JString s).
    split; [exact Hfs | now apply check_nonempty_string]. }
  split.
  { intros prog path fs x rest H Hfs. cbn [forallb] in H.
    apply andb_true_iff in H. destruct H as [Hx _].
    apply negb_true_iff in Hx.
    assert (Hc : check_duplicate_keys (load_value hook (JArray (x :: rest)))
                 = inl (if scalar x then TypeError else ValueError)).
    { apply check_array_first. now apply unpack2_not_two_items. }
    split; [exact Hc|].
    apply run_other_failure; [|now destruct (scalar x)].
    right. right. exists (JArray (x :: rest)). split; [exact Hfs | exact Hc]. }
  split.
  { intros prog path fs H.
    apply run_other_failure; [now left | reflexivity]. }
  intros prog path fs H.
  apply run_other_failure; [right; now left | reflexivity].
Qed.

Lemma C9_other_failures_propagate_witness :
  (fails_with (fun _ => inl PermissionError) "app.json" PermissionError
   /\ other_failure PermissionError = true
   /\ uncaught (run ["json_dup_key_check.py"; "app.json"]
                    (fun _ => inl PermissionError))
               PermissionError)
  /\ (scalar (JNumber (Int 5)) = true
      /\ single_file "app.json" (inr (JNumber (Int 5))) "app.json"
         = inr (inr (JNumber (Int 5)))
      /\ uncaught (run ["json_dup_key_check.py"; "app.json"]
                       (single_file "app.json" (inr (JNumber (Int 5)))))
                  TypeError)
  /\ (scalar JNull = true
      /\ single_file "app.json" (inr JNull) "app.json" = inr (inr JNull)
      /\ uncaught (run ["json_dup_key_check.py"; "app.json"]
                       (single_file "app.json" (inr JNull)))
                  TypeError)
  /\ ("abc" <> EmptyString
      /\ single_file "app.json" (inr (JString "abc")) "app.json"
         = inr (inr (JString "abc"))
      /\ uncaught (run ["json_dup_key_check.py"; "app.json"]
                       (single_file "app.json" (inr (JString "abc"))))
                  ValueError)
  /\ (forallb (fun y => negb (two_items y))
              [JNumber (Int 1); JNumber (Int 2); JNumber (Int 3)] = true
      /\ single_file "app.json"
           (inr (JArray [JNumber (Int 1); JNumber (Int 2); JNumber (Int 3)]))
           "app.json"
         = inr (inr (JArray [JNumber (Int 1); JNumber (Int 2);
                             JNumber (Int 3)]))
      /\ uncaught (run ["json_dup_key_check.py"; "app.json"]
                       (single_file "app.json"
                          (inr (JArray [JNumber (Int 1); JNumber (Int 2);
                                        JNumber (Int 3)]))))
                  TypeError)
  /\ (forallb (fun y => negb (two_items y)) [JString e_acute] = true
      /\ single_file "app.json" (inr (JArray [JString e_acute])) "app.json"
         = inr (inr (JArray [JString e_acute]))
      /\ uncaught (run ["json_dup_key_check.py"; "app.json"]
                       (single_file "app.json"
                          (inr (JArray [JString e_acute]))))
                  ValueError)
  /\ ((fun _ : string => inl IsADirectoryError : result file) "/tmp"
      = inl IsADirectoryError
      /\ uncaught (run ["json_dup_key_check.py"; "/tmp"]
                       (fun _ => inl IsADirectoryError))
                  IsADirectoryError)
  /\ (single_file "app.json" (inl UnicodeDecodeError) "app.json"
      = inr (inl UnicodeDecodeError)
      /\ uncaught (run ["json_dup_key_check.py"; "app.json"]
                       (single_file "app.json" (inl UnicodeDecodeError)))
                  UnicodeDecodeError).
Proof.
  destruct C9_other_failures_propagate
    as (Hany & Hsca & Hstr & Harr & Hdir & Hutf).
  assert (Hfail : fails_with (fun _ => inl PermissionError) "app.json"
                             PermissionError) by (left; reflexivity).
  assert (Hne : "abc" <> EmptyString) by discriminate.
  split.
  { split; [exact Hfail|]. split; [reflexivity|].
    exact (Hany "json_dup_key_check.py" "app.json"
                (fun _ => inl PermissionError) PermissionError
                Hfail eq_refl). }
  split.
  { split; [reflexivity|]. split; [reflexivity|].
    exact (proj2 (Hsca "json_dup_key_check.py" "app.json"
                       (single_file "app.json" (inr (JNumber (Int 5))))
                       (JNumber (Int 5)) eq_refl eq_refl)). }
  split.
  { split; [reflexivity|]. split; [reflexivity|].
    exact (proj2 (Hsca "json_dup_key_check.py" "app.json"
                       (single_file "app.json" (inr JNull))
                       JNull eq_refl eq_refl)). }
  split.
  { split; [exact Hne|]. split; [reflexivity|].
    exact (proj2 (Hstr "json_dup_key_check.py" "app.json"
                       (single_file "app.json" (inr (JString "abc")))
                       "abc" Hne eq_refl)). }
  split.
  { split; [reflexivity|]. split; [reflexivity|].
    exact (proj2 (Harr "json_dup_key_check.py" "app.json"
                       (single_file "app.json"
                          (inr (JArray [JNumber (Int 1); JNumber (Int 2);
                                        JNumber (Int 3)])))
                       (JNumber (Int 1)) [JNumber (Int 2); JNumber (Int 3)]
                       eq_refl eq_refl)). }
  split.
  { split; [reflexivity|]. split; [reflexivity|].
    exact (proj2 (Harr "json_dup_key_check.py" "app.json"
                       (single_file "app.json"
                          (inr (JArray [JString e_acute])))
                       (JString e_acute) [] eq_refl eq_refl)). }
  split.
  { split; [reflexivity|].
    exact (Hdir "json_dup_key_check.py" "/tmp"
                (fun _ => inl IsADirectoryError) eq_refl). }
  split; [reflexivity|].
  exact (Hutf "json_dup_key_check.py" "app.json"
              (single_file "app.json" (inl UnicodeDecodeError)) eq_refl).
Defined.

(** *** Arrays read as pair lists *)

(** C10: there is a document without any object on which the scan returns
    True: in [[["a", 1], ["a", 2]]] each two-element array unpacks into key
    and value like a pair, the key "a" is seen twice, and the run prints the
    duplicate-found message and exits with code 1. *)
Theorem C10_array_read_as_pair_list :
  exists j : json,
    j = JArray [JArray [JString "a"; JNumber (Int 1)];
                JArray [JString "a"; JNumber (Int 2)]]
    /\ has_object j = false
    /\ has_duplicate j = false
    /\ scan (inr j) = inr true
    /\ forall (prog path : string) (fs : filesystem),
        fs path = inr (inr j) ->
        stdout (run [prog; path] fs) = ["Duplicate keys found in " ++ path]
        /\ exit_code (run [prog; path] fs) = 1%Z.
Proof.
  exists pair_array_doc.
  split; [reflexivity|]. split; [reflexivity|]. split; [reflexivity|].
  split; [reflexivity|].
  intros prog path fs Hfs.
  rewrite (run_check_returns prog path fs pair_array_doc true Hfs eq_refl).
  split; reflexivity.
Qed.

Lemma C10_array_read_as_pair_list_witness :
  single_file "app.json" (inr pair_array_doc) "app.json"
  = inr (inr pair_array_doc)
  /\ stdout (run ["json_dup_key_check.py"; "app.json"]
                 (single_file "app.json" (inr pair_array_doc)))
     = ["Duplicate keys found in app.json"]
  /\ exit_code (run ["json_dup_key_check.py"; "app.json"]
                    (single_file "app.json" (inr pair_array_doc)))
     = 1%Z.
Proof.
  split; [reflexivity|].
  destruct C10_array_read_as_pair_list as (j & Hj & _ & _ & _ & Hrun).
  apply (Hrun "json_dup_key_check.py" "app.json"
              (single_file "app.json" (inr pair_array_doc))).
  rewrite Hj. reflexivity.
Defined.

(** ** Further properties of the script *)

(** *** Every run, case by case *)

(** The runs of the script: a wrong command line, or a path on which
    [open] raises, [json.load] raises, the check raises or the check
    returns. *)
Lemma run_cases (argv : list string) (fs : filesystem) :
  (List.length argv <> 2
   /\ run argv fs
      = {| events := [Printed usage_message]; ending := Exited 1 |})
  \/ exists prog path : string,
      argv = [prog; path]
      /\ ((exists e, fs path = inl e)
          \/ (exists e, fs path = inr (inl e))
          \/ (exists j e, fs path = inr (inr j)
                          /\ check_duplicate_keys (load_value hook j) = inl e)
          \/ (exists j b, fs path = inr (inr j)
                          /\ check_duplicate_keys (load_value hook j) = inr b)).
Proof.
  destruct (Nat.eq_dec (List.length argv) 2) as [Hlen|Hlen].
  - right. destruct argv as [|prog [|path [|extra argv]]]; try discriminate Hlen.
    exists prog, path. split; [reflexivity|].
    destruct (fs path) as [e|[e|j]] eqn:Hfs.
    + left. now exists e.
    + right. left. now exists e.
    + destruct (check_duplicate_keys (load_value hook j)) as [e|b] eqn:Hc.
      * right. right. left. now exists j, e.
      * right. right. right. now exists j, b.
  - left. split; [exact Hlen | now apply run_wrong_arity].
Qed.

Ltac by_run_cases argv fs :=
  let Hlen := fresh "Hlen" in
  let Hfs := fresh "Hfs" in
  let Hc := fresh "Hc" in
  destruct (Nat.eq_dec (List.length argv) 2) as [Hlen|Hlen];
  [ destruct argv as [|?prog [|?path [|? ?]]]; try discriminate Hlen;
    clear Hlen;
    match goal with
    | |- context [run [?pg; ?pa] fs] =>
        destruct (fs pa) as [?e|[?e|?j]] eqn:Hfs;
        [ rewrite (run_open_raises pg pa fs _ Hfs)
        | rewrite (run_load_raises pg pa fs _ Hfs)
        | match goal with
          | j : json |- _ =>
              destruct (check_duplicate_keys (load_value hook j))
                as [?e|?b] eqn:Hc;
              [ rewrite (run_check_raises pg pa fs j _ Hfs Hc)
              | rewrite (run_check_returns pg pa fs j _ Hfs Hc) ]
          end ]
    end
  | rewrite (run_wrong_arity argv fs Hlen) ].

(** *** Objects at the top level *)

Lemma repeatedb_NoDup (keys : list string) :
  repeatedb keys = false <-> NoDup keys.
Proof.
  induction keys as [|k keys IH].
  - split; [constructor | reflexivity].
  - cbn [repeatedb]. rewrite orb_false_iff, IH. split.
    + intros [Hk Hnd]. constructor; [|exact Hnd].
      intros Hin. apply Bool.not_true_iff_false in Hk. apply Hk.
      apply existsb_exists. exists k. split; [exact Hin | apply String.eqb_refl].
    + intros Hnd. inversion Hnd as [|x l Hnin Hnd']; subst. split; [|exact Hnd'].
      apply Bool.not_true_iff_false. intros Hex.
      apply existsb_exists in Hex. destruct Hex as [x [Hin Heq]].
      apply String.eqb_eq in Heq. now subst x.
Qed.

Lemma repeatedb_Permutation (keys keys' : list string) :
  Permutation keys keys' -> repeatedb keys = repeatedb keys'.
Proof.
  intros Hperm.
  destruct (repeatedb keys) eqn:H1, (repeatedb keys') eqn:H2; try reflexivity.
  - apply repeatedb_NoDup in H2.
    apply (Permutation_NoDup (Permutation_sym Hperm)) in H2.
    apply repeatedb_NoDup in H2. congruence.
  - apply repeatedb_NoDup in H1.
    apply (Permutation_NoDup Hperm) in H1.
    apply repeatedb_NoDup in H1. congruence.
Qed.

Lemma run_object (prog path : string) (fs : filesystem)
      (members : list (string * json)) :
  fs path = inr (inr (JObject members)) ->
  run [prog; path] fs
  = {| events := [Opened path; Loaded;
                  Printed (if repeatedb (names members)
                           then duplicate_message path
                           else no_duplicate_message path)];
       ending := Exited (if repeatedb (names members) then 1 else 0) |}.
Proof.
  intros Hfs.
  apply (run_check_returns prog path fs (JObject members) _ Hfs).
  apply check_object.
Qed.

(** X1: for a file that holds an object, the run never raises: it reports a
    duplicate and exits 1 exactly when a name occurs twice among the
    object's own members, and reports no duplicate and exits 0 exactly when
    those names are pairwise distinct.  A reported object does contain a
    repeated key. *)
Theorem object_reported_iff_own_name_repeats
        (prog path : string) (fs : filesystem)
        (members : list (string * json)) :
  fs path = inr (inr (JObject members)) ->
  ((stdout (run [prog; path] fs) = [duplicate_message path]
    /\ exit_code (run [prog; path] fs) = 1%Z)
   <-> repeated (names members))
  /\ ((stdout (run [prog; path] fs) = [no_duplicate_message path]
       /\ exit_code (run [prog; path] fs) = 0%Z)
      <-> NoDup (names members))
  /\ (exit_code (run [prog; path] fs) = 1%Z ->
      has_duplicate (JObject members) = true)
  /\ (exists code : Z, ending (run [prog; path] fs) = Exited code).
Proof.
  intros Hfs. rewrite (run_object prog path fs members Hfs).
  rewrite <- repeatedb_spec, <- repeatedb_NoDup.
  cbn [has_duplicate].
  destruct (repeatedb (names members)); cbn.
  - repeat split; try reflexivity; try discriminate.
    + intros [_ H]; discriminate H.
    + now exists 1%Z.
  - repeat split; try reflexivity; try discriminate.
    + intros [_ H]; discriminate H.
    + now exists 0%Z.
Qed.

Lemma object_reported_iff_own_name_repeats_witness :
  single_file "app.json"
    (inr (JObject [("a", JNull); ("b", JBool true); ("a", JNull)])) "app.json"
  = inr (inr (JObject [("a", JNull); ("b", JBool true); ("a", JNull)]))
  /\ repeated (names [("a", JNull); ("b", JBool true); ("a", JNull)])
  /\ stdout (run ["json_dup_key_check.py"; "app.json"]
                 (single_file "app.json"
                    (inr (JObject [("a", JNull); ("b", JBool true);
                                   ("a", JNull)]))))
     = [duplicate_message "app.json"].
Proof.
  assert (Hrep : repeated (names [("a", JNull); ("b", JBool true);
                                  ("a", JNull)])).
  { exists 0, 2, "a". split; [lia|]. split; reflexivity. }
  split; [reflexivity|]. split; [exact Hrep|].
  destruct (object_reported_iff_own_name_repeats
              "json_dup_key_check.py" "app.json"
              (single_file "app.json"
                 (inr (JObject [("a", JNull); ("b", JBool true);
                                ("a", JNull)])))
              [("a", JNull); ("b", JBool true); ("a", JNull)] eq_refl)
    as ([_ Hdup] & _ & _).
  exact (proj1 (Hdup Hrep)).
Defined.

(** X2: the outcome for an object depends only on which names its own
    members carry, not on their order and not on their values: two objects
    whose name lists are permutations of each other get the same run. *)
Theorem object_outcome_ignores_order_and_values
        (prog path : string) (fs1 fs2 : filesystem)
        (members1 members2 : list (string * json)) :
  fs1 path = inr (inr (JObject members1)) ->
  fs2 path = inr (inr (JObject members2)) ->
  Permutation (names members1) (names members2) ->
  run [prog; path] fs1 = run [prog; path] fs2.
Proof.
  intros H1 H2 Hperm.
  rewrite (run_object prog path fs1 members1 H1).
  rewrite (run_object prog path fs2 members2 H2).
  now rewrite (repeatedb_Permutation _ _ Hperm).
Qed.

Lemma object_outcome_ignores_order_and_values_witness :
  single_file "app.json"
    (inr (JObject [("a", JNumber (Int 1)); ("b", JNull)])) "app.json"
  = inr (inr (JObject [("a", JNumber (Int 1)); ("b", JNull)]))
  /\ single_file "app.json"
       (inr (JObject [("b", JObject [("x", JNull); ("x", JNull)]);
                      ("a", JString "v")])) "app.json"
     = inr (inr (JObject [("b", JObject [("x", JNull); ("x", JNull)]);
                          ("a", JString "v")]))
  /\ Permutation (names [("a", JNumber (Int 1)); ("b", JNull)])
                 (names [("b", JObject [("x", JNull); ("x", JNull)]);
                         ("a", JString "v")])
  /\ run ["json_dup_key_check.py"; "app.json"]
         (single_file "app.json"
            (inr (JObject [("a", JNumber (Int 1)); ("b", JNull)])))
     = run ["json_dup_key_check.py"; "app.json"]
           (single_file "app.json"
              (inr (JObject [("b", JObject [("x", JNull); ("x", JNull)]);
                             ("a", JString "v")]))).
Proof.
  assert (Hperm : Permutation
                    (names [("a", JNumber (Int 1)); ("b", JNull)])
                    (names [("b", JObject [("x", JNull); ("x", JNull)]);
                            ("a", JString "v")])) by apply perm_swap.
  split; [reflexivity|]. split; [reflexivity|]. split; [exact Hperm|].
  exact (object_outcome_ignores_order_and_values
           "json_dup_key_check.py" "app.json" _ _ _ _ eq_refl eq_refl Hperm).
Defined.

(** *** What [check_duplicate_keys] can raise *)

Lemma unpack2_raises (item : pyval) (e : exn) :
  unpack2 item = inl e -> e = TypeError \/ e = ValueError.
Proof.
  unfold unpack2. destruct item as [| b | z | f | s | items | items];
    cbn [iter bind ret raise Monad_result]; intros H;
    try (injection H as <-; now left).
  - destruct (chars s) as [|a [|b [|c l]]]; try discriminate H;
      injection H as <-; now right.
  - destruct items as [|a [|b [|c l]]]; try discriminate H;
      injection H as <-; now right.
  - destruct items as [|a [|b [|c l]]]; try discriminate H;
      injection H as <-; now right.
Qed.

Lemma for_pairs_raises (items : list pyval) :
  forall (keys_seen : pyset) (e : exn),
    for_pairs keys_seen items = inl e -> e = TypeError \/ e = ValueError.
Proof.
  induction items as [|item rest IH]; intros keys_seen e H; [discriminate H|].
  cbn [for_pairs] in H.
  destruct (unpack2 item) as [e'|[key value]] eqn:Hu;
    cbn [bind ret Monad_result] in H.
  - injection H as <-. exact (unpack2_raises item e' Hu).
  - unfold set_contains, set_add in H.
    destruct (hashable key); cbn [bind ret raise Monad_result] in H.
    + destruct (existsb (same_key key) keys_seen); [discriminate H|].
      exact (IH _ e H).
    + injection H as <-. now left.
Qed.

(** X3: whatever value it is given, [check_duplicate_keys] returns a
    boolean or raises TypeError or ValueError, nothing else: none of its
    failures is one that [main] catches. *)
Theorem check_raises_only_type_or_value_error (pairs : pyval) (e : exn) :
  check_duplicate_keys pairs = inl e -> e = TypeError \/ e = ValueError.
Proof.
  unfold check_duplicate_keys.
  destruct (iter pairs) as [e'|items] eqn:Hi; cbn [bind ret Monad_result].
  - intros H. injection H as <-.
    destruct pairs; try discriminate Hi; cbn in Hi; injection Hi as <-;
      now left.
  - apply for_pairs_raises.
Qed.

Lemma check_raises_only_type_or_value_error_witness :
  check_duplicate_keys (PList [PTuple [PStr "a"; PNone]; PInt 3])
  = inl TypeError
  /\ (TypeError = TypeError \/ TypeError = ValueError).
Proof.
  split; [reflexivity|].
  exact (check_raises_only_type_or_value_error
           (PList [PTuple [PStr "a"; PNone]; PInt 3]) TypeError eq_refl).
Defined.

(** *** Exit codes and output of every run *)

(** X4: when neither [open] nor [json.load] raises SystemExit, the exit
    code of a run is 0 or 1, and it is 0 only when the command line names
    one path, the file was opened and loaded, [check_duplicate_keys]
    returned False on the loaded value, and the no-duplicate message is the
    one line printed. *)
Theorem exit_zero_only_after_clean_check (argv : list string)
        (fs : filesystem) :
  orderly fs ->
  (exit_code (run argv fs) = 0%Z \/ exit_code (run argv fs) = 1%Z)
  /\ (exit_code (run argv fs) = 0%Z ->
      exists (prog path : string) (j : json),
        argv = [prog; path]
        /\ fs path = inr (inr j)
        /\ scan (inr j) = inr false
        /\ events (run argv fs)
           = [Opened path; Loaded; Printed (no_duplicate_message path)]).
Proof.
  intros Hord. by_run_cases argv fs.
  - destruct (Hord path 0%Z) as [Ho _].
    destruct e; try (split; [now right | discriminate]).
    destruct (Hord path code) as [Ho' _]. contradiction.
  - destruct e; try (split; [now right | discriminate]).
    destruct (Hord path code) as [_ Hl]. contradiction.
  - destruct (check_raises_only_type_or_value_error _ _ Hc) as [-> | ->];
      (split; [now right | discriminate]).
  - destruct b; cbn.
    + split; [now right | discriminate].
    + split; [now left|]. intros _. exists prog, path, j.
      repeat split; assumption.
  - split; [now right | discriminate].
Qed.

Lemma exit_zero_only_after_clean_check_witness :
  orderly (single_file "app.json" (inr nested_duplicate_doc))
  /\ exit_code (run ["json_dup_key_check.py"; "app.json"]
                    (single_file "app.json" (inr nested_duplicate_doc)))
     = 0%Z
  /\ exists (prog path : string) (j : json),
      ["json_dup_key_check.py"; "app.json"] = [prog; path]
      /\ single_file "app.json" (inr nested_duplicate_doc) path
         = inr (inr j)
      /\ scan (inr j) = inr false
      /\ events (run ["json_dup_key_check.py"; "app.json"]
                     (single_file "app.json" (inr nested_duplicate_doc)))
         = [Opened path; Loaded; Printed (no_duplicate_message path)].
Proof.
  assert (Hord : orderly (single_file "app.json" (inr nested_duplicate_doc))).
  { intros path code. unfold single_file.
    destruct (String.eqb path "app.json"); split; discriminate. }
  split; [exact Hord|]. split; [reflexivity|].
  exact (proj2 (exit_zero_only_after_clean_check
                  ["json_dup_key_check.py"; "app.json"]
                  (single_file "app.json" (inr nested_duplicate_doc))
                  Hord) eq_refl).
Defined.

(** X5: a run prints at most one line, and a run that ends in a traceback
    has printed nothing: no message of the script ever comes with an
    uncaught exception. *)
Theorem at_most_one_line_and_none_before_traceback
        (argv : list string) (fs : filesystem) :
  List.length (stdout (run argv fs)) <= 1
  /\ (forall e : exn,
         ending (run argv fs) = Traceback e -> stdout (run argv fs) = []).
Proof.
  by_run_cases argv fs.
  - destruct e; cbn; (split; [lia | intros e' H; (reflexivity || discriminate H)]).
  - destruct e; cbn; (split; [lia | intros e' H; (reflexivity || discriminate H)]).
  - destruct e; cbn; (split; [lia | intros e' H; (reflexivity || discriminate H)]).
  - destruct b; cbn; (split; [lia | intros e' H; discriminate H]).
  - cbn. split; [lia | intros e' H; discriminate H].
Qed.

Lemma at_most_one_line_and_none_before_traceback_witness :
  ending (run ["json_dup_key_check.py"; "app.json"]
              (single_file "app.json" (inr (JBool true))))
  = Traceback TypeError
  /\ stdout (run ["json_dup_key_check.py"; "app.json"]
                 (single_file "app.json" (inr (JBool true))))
     = [].
Proof.
  split; [reflexivity|].
  exact (proj2 (at_most_one_line_and_none_before_traceback
                  ["json_dup_key_check.py"; "app.json"]
                  (single_file "app.json" (inr (JBool true))))
               TypeError eq_refl).
Defined.

(** X6: a run opens no path but its one argument, and that at most once;
    it calls [json.load] exactly when that [open] returned a file. *)
Theorem opens_only_its_argument (argv : list string) (fs : filesystem) :
  (forall p : string,
      In p (opened (run argv fs)) ->
      List.length argv = 2 /\ nth_error argv 1 = Some p)
  /\ List.length (opened (run argv fs)) <= 1
  /\ (parses (run argv fs) = true
      <-> exists (prog path : string) (f : file),
            argv = [prog; path] /\ fs path = inr f).
Proof.
  by_run_cases argv fs; try destruct e; try destruct b; cbn;
    (split;
     [ first [ intros p [<- | []]; split; reflexivity | intros p [] ] |]);
    (split; [lia|]);
    (split; intros H;
     first
       [ discriminate H
       | reflexivity
       | eexists _, _, _; split; [reflexivity | eassumption]
       | destruct H as (pg & pa & f & Heq & Hf);
         injection Heq as <- <-; rewrite Hfs in Hf; discriminate Hf
       | destruct H as (pg & pa & f & -> & _); exfalso; apply Hlen;
         reflexivity ]).
Qed.

Lemma opens_only_its_argument_witness :
  In "app.json"
     (opened (run ["json_dup_key_check.py"; "app.json"]
                  (single_file "other.json" (inr JNull))))
  /\ nth_error ["json_dup_key_check.py"; "app.json"] 1 = Some "app.json"
  /\ parses (run ["json_dup_key_check.py"; "app.json"]
                 (single_file "other.json" (inr JNull)))
     = false.
Proof.
  assert (Hin : In "app.json"
                   (opened (run ["json_dup_key_check.py"; "app.json"]
                                (single_file "other.json" (inr JNull)))))
    by (left; reflexivity).
  split; [exact Hin|].
  split.
  - exact (proj2 (proj1 (opens_only_its_argument
                           ["json_dup_key_check.py"; "app.json"]
                           (single_file "other.json" (inr JNull)))
                        "app.json" Hin)).
  - reflexivity.
Defined.

(** *** Arrays whose elements unpack like pairs *)

(** The loop over items that unpack into a string key and a value, followed
    by any other items: it answers at the first key seen again and reaches
    the other items only when there is none. *)
Lemma for_pairs_keyed (mk : string * pyval -> pyval) :
  (forall p, unpack2 (mk p) = inr (PStr (fst p), snd p)) ->
  forall (pairs : list (string * pyval)) (seen : list string)
         (rest : list pyval),
    for_pairs (map PStr seen) (map mk pairs ++ rest)
    = if seen_again seen (map fst pairs) then inr true
      else for_pairs (map PStr (seen ++ map fst pairs)) rest.
Proof.
  intros Hmk. induction pairs as [|[k v] pairs IH]; intros seen rest.
  - cbn [map app seen_again]. now rewrite app_nil_r.
  - cbn [map app for_pairs fst seen_again]. rewrite Hmk.
    cbn [bind ret Monad_result fst snd].
    unfold set_contains, set_add. cbn [hashable bind ret Monad_result].
    rewrite existsb_same_key_str.
    destruct (existsb (String.eqb k) seen); [reflexivity|].
    replace (map PStr seen ++ [PStr k])%list with (map PStr (seen ++ [k]))
      by now rewrite map_app.
    rewrite IH. now rewrite <- app_assoc.
Qed.

Lemma load_pair_array (members : list (string * json)) (rest : list json) :
  load_value hook (JArray (pair_array members ++ rest))
  = PList (map (fun p => PList [PStr (fst p); snd p])
               (map (fun m => (fst m, load_value hook (snd m))) members)
           ++ map (load_value hook) rest).
Proof.
  cbn [load_value]. rewrite map_app. unfold pair_array.
  now rewrite !map_map.
Qed.

Lemma check_pair_array (members : list (string * json)) (rest : list json) :
  check_duplicate_keys (load_value hook (JArray (pair_array members ++ rest)))
  = if repeatedb (names members) then inr true
    else for_pairs (map PStr (names members)) (map (load_value hook) rest).
Proof.
  rewrite load_pair_array. unfold check_duplicate_keys, set_new.
  cbn [iter bind ret Monad_result].
  rewrite (for_pairs_keyed (fun p => PList [PStr (fst p); snd p])
             (fun p => eq_refl) _ [] _).
  rewrite map_map. cbn [fst app]. fold (names members).
  rewrite seen_again_spec.
  assert (H0 : forall l : list string,
             existsb (fun k => existsb (String.eqb k) []) l = false).
  { induction l as [|a l IHl]; [reflexivity | exact IHl]. }
  now rewrite H0.
Qed.

(** X7: the loop returns at the first key it has seen before and does not
    look at what follows: an array that starts with [name, value] pairs
    among which a name repeats is reported as a duplicate whatever the
    remaining elements are, even ones that would raise by themselves. *)
Theorem duplicate_found_before_later_items
        (members : list (string * json)) (rest : list json) :
  repeated (names members) ->
  scan (inr (JArray (pair_array members ++ rest))) = inr true.
Proof.
  intros Hrep. apply repeatedb_spec in Hrep.
  unfold scan. cbn [bind ret Monad_result].
  fold hook. now rewrite check_pair_array, Hrep.
Qed.

Lemma duplicate_found_before_later_items_witness :
  repeated (names [("a", JNull); ("a", JNull)])
  /\ scan (inr (JArray (pair_array [("a", JNull); ("a", JNull)]
                        ++ [JNumber (Int 5)])))
     = inr true
  /\ scan (inr (JArray [JNumber (Int 5)])) = inl TypeError.
Proof.
  assert (Hrep : repeated (names [("a", JNull); ("a", JNull)])).
  { exists 0, 1, "a". split; [lia|]. split; reflexivity. }
  split; [exact Hrep|]. split; [|reflexivity].
  exact (duplicate_found_before_later_items
           [("a", JNull); ("a", JNull)] [JNumber (Int 5)] Hrep).
Defined.

(** X8: an array of two-element arrays [[name, value], ...] is scanned
    exactly like the object with those members: the scan has the same
    result, and files holding the one and the other get the same run. *)
Theorem pair_array_scanned_like_object (members : list (string * json)) :
  scan (inr (JArray (pair_array members))) = scan (inr (JObject members))
  /\ forall (prog path : string) (fs1 fs2 : filesystem),
      fs1 path = inr (inr (JArray (pair_array members))) ->
      fs2 path = inr (inr (JObject members)) ->
      run [prog; path] fs1 = run [prog; path] fs2.
Proof.
  assert (Hc : check_duplicate_keys
                 (load_value hook (JArray (pair_array members)))
               = inr (repeatedb (names members))).
  { rewrite <- (app_nil_r (pair_array members)), check_pair_array.
    now destruct (repeatedb (names members)). }
  split.
  - unfold scan. cbn [bind ret Monad_result]. fold hook.
    now rewrite Hc, check_object.
  - intros prog path fs1 fs2 H1 H2.
    rewrite (run_check_returns prog path fs1 _ _ H1 Hc).
    now rewrite (run_object prog path fs2 members H2).
Qed.

Lemma pair_array_scanned_like_object_witness :
  single_file "app.json"
    (inr (JArray (pair_array [("a", JNull); ("b", JNull)]))) "app.json"
  = inr (inr (JArray (pair_array [("a", JNull); ("b", JNull)])))
  /\ single_file "app.json"
       (inr (JObject [("a", JNull); ("b", JNull)])) "app.json"
     = inr (inr (JObject [("a", JNull); ("b", JNull)]))
  /\ run ["json_dup_key_check.py"; "app.json"]
         (single_file "app.json"
            (inr (JArray (pair_array [("a", JNull); ("b", JNull)]))))
     = run ["json_dup_key_check.py"; "app.json"]
           (single_file "app.json"
              (inr (JObject [("a", JNull); ("b", JNull)]))).
Proof.
  split; [reflexivity|]. split; [reflexivity|].
  exact (proj2 (pair_array_scanned_like_object [("a", JNull); ("b", JNull)])
               "json_dup_key_check.py" "app.json" _ _ eq_refl eq_refl).
Defined.

(** X9: a key that is itself an array or an object cannot be hashed: an
    array whose first element is a two-element array with an array or an
    object in first place makes the membership test raise TypeError, and
    the run ends in a traceback with nothing printed. *)
Theorem container_key_raises_type_error
        (prog path : string) (fs : filesystem)
        (key value : json) (rest : list json) :
  container key = true ->
  fs path = inr (inr (JArray (JArray [key; value] :: rest))) ->
  scan (inr (JArray (JArray [key; value] :: rest))) = inl TypeError
  /\ uncaught (run [prog; path] fs) TypeError.
Proof.
  intros Hk Hfs.
  assert (Hc : check_duplicate_keys
                 (load_value hook (JArray (JArray [key; value] :: rest)))
               = inl TypeError).
  { destruct key; try discriminate Hk; reflexivity. }
  split; [exact Hc|].
  apply run_other_failure; [|reflexivity].
  right. right. now exists (JArray (JArray [key; value] :: rest)).
Qed.

Lemma container_key_raises_type_error_witness :
  container (JArray [JNumber (Int 1)]) = true
  /\ single_file "app.json"
       (inr (JArray [JArray [JArray [JNumber (Int 1)]; JNumber (Int 2)]]))
       "app.json"
     = inr (inr (JArray [JArray [JArray [JNumber (Int 1)];
                                 JNumber (Int 2)]]))
  /\ uncaught (run ["json_dup_key_check.py"; "app.json"]
                   (single_file "app.json"
                      (inr (JArray [JArray [JArray [JNumber (Int 1)];
                                            JNumber (Int 2)]]))))
              TypeError.
Proof.
  split; [reflexivity|]. split; [reflexivity|].
  exact (proj2 (container_key_raises_type_error
                  "json_dup_key_check.py" "app.json" _
                  (JArray [JNumber (Int 1)]) (JNumber (Int 2)) []
                  eq_refl eq_refl)).
Defined.

(** *** The messages *)

(** X10: the five messages are pairwise different whatever the paths and
    the error detail are, so the printed line alone tells the five
    outcomes apart although four of them share exit code 1. *)
Theorem messages_pairwise_distinct (p1 p2 p3 p4 detail : string) :
  usage_message <> duplicate_message p1
  /\ usage_message <> no_duplicate_message p2
  /\ usage_message <> invalid_json_message p3 detail
  /\ usage_message <> not_found_message p4
  /\ duplicate_message p1 <> no_duplicate_message p2
  /\ duplicate_message p1 <> invalid_json_message p3 detail
  /\ duplicate_message p1 <> not_found_message p4
  /\ no_duplicate_message p2 <> invalid_json_message p3 detail
  /\ no_duplicate_message p2 <> not_found_message p4
  /\ invalid_json_message p3 detail <> not_found_message p4.
Proof.
  repeat split; discriminate.
Qed.
